(** * Sphinx documentation configuration of the Util project

    A shallow embedding of [doc/src/sphinx/conf.py] (a Python 2 module that
    Sphinx executes once, top to bottom, in a namespace of its own) and the
    properties of the configuration it produces.

    The module's global namespace is a finite map from names to Python
    values; [sys.path] and the text written to [sys.stdout] are carried in
    the same state.  Everything the module reads from outside (the working
    directory behind [os.path.abspath], the clock, the import machinery and
    the collaborator module [sbt_versions]) is gathered in a [world]. *)

From Stdlib Require Import ZArith String Ascii List.
From stdpp Require Import base option gmap strings list pretty.

Local Open Scope string_scope.
Local Set Warnings "-register-all".

(** ** Python values and exceptions *)

(** An exception instance: its class, the names of the classes it inherits
    from (the rest of its method resolution order), and its message. *)
Record exn := Exn {
  exn_class : string;
  exn_bases : list string;
  exn_msg : string
}.

(** [isinstance(e, cls)], as an [except cls] clause tests it. *)
Definition isinstance (e : exn) (cls : string) : bool :=
  bool_decide (cls ∈ exn_class e :: exn_bases e).

Definition standard_bases : list string :=
  ["StandardError"; "Exception"; "BaseException"].

Definition ImportError (msg : string) : exn :=
  Exn "ImportError" standard_bases msg.
Definition NameError (msg : string) : exn :=
  Exn "NameError" standard_bases msg.
Definition ValueError (msg : string) : exn :=
  Exn "ValueError" standard_bases msg.
Definition IndexError (msg : string) : exn :=
  Exn "IndexError" ("LookupError" :: standard_bases) msg.
Definition SyntaxError (msg : string) : exn :=
  Exn "SyntaxError" standard_bases msg.

(** The values [conf.py] binds: [None], byte and unicode strings, list and
    dict literals (a dict literal keeps its items in the order they are
    written), imported modules and caught exceptions. *)
Inductive pyval :=
| VNone
| VStr (s : string)
| VUnicode (s : string)
| VList (xs : list pyval)
| VDict (items : list (string * pyval))
| VModule (name : string)
| VExn (e : exn).

(** ** State and environment *)

Record state := State {
  globals : gmap string pyval;
  sys_path : list string;
  stdout : string
}.

(** What one run of the module observes from outside.  [os_path_abspath] is
    taken to return, that is, the working directory it resolves against
    exists.  [import_module path
    name] is [None] when importing [name] with search path [path] succeeds
    and [Some e] when the import raises [e].  [find_release] and
    [release_to_version] are the two functions of the collaborator module
    [sbt_versions], which may return a value or raise. *)
Record world := World {
  os_path_abspath : string → string;
  datetime_now_year : Z;
  import_module : list string → string → option exn;
  find_release : string → exn + pyval;
  release_to_version : pyval → exn + pyval
}.

(** ** A state and exception monad for module-level code *)

Inductive outcome (A : Type) :=
| Done (a : A) (s : state)
| Raised (e : exn) (s : state).
Arguments Done {A} a s.
Arguments Raised {A} e s.

Definition M (A : Type) : Type := world → state → outcome A.

#[global] Instance M_ret : MRet M := λ A a _ s, Done a s.

#[global] Instance M_bind : MBind M := λ A B k m w s,
  match m w s with
  | Done a s' => k a w s'
  | Raised e s' => Raised e s'
  end.

Definition ask {A} (f : world → A) : M A := λ w s, Done (f w) s.

(** A call into foreign code that returns or raises. *)
Definition call {A} (f : world → exn + A) : M A :=
  λ w s, match f w with
         | inl e => Raised e s
         | inr a => Done a s
         end.

(** [name = v] at module level. *)
Definition store (name : string) (v : pyval) : M unit :=
  λ _ s, Done tt (State (<[name := v]> (globals s)) (sys_path s) (stdout s)).

(** Reading a global name; an unbound name raises [NameError]. *)
Definition load (name : string) : M pyval :=
  λ _ s, match globals s !! name with
         | Some v => Done v s
         | None => Raised (NameError name) s
         end.

(** [sys.path.append(p)] *)
Definition sys_path_append (p : string) : M unit :=
  λ _ s, Done tt (State (globals s) (sys_path s ++ [p]) (stdout s)).

(** The [print] statement: the text followed by a newline on [sys.stdout]. *)
Definition newline : string := String (ascii_of_nat 10) EmptyString.

Definition print (text : string) : M unit :=
  λ _ s, Done tt (State (globals s) (sys_path s) (stdout s +:+ text +:+ newline)).

(** The import machinery, consulted with the current [sys.path]. *)
Definition find_and_load (name : string) : M unit :=
  λ w s, match import_module w (sys_path s) name with
         | None => Done tt s
         | Some e => Raised e s
         end.

(** [import name]: load the module and bind its name. *)
Definition import_ (name : string) : M unit :=
  find_and_load name ;; store name (VModule name).

(** [import name] for a module of the standard library ([sys], [os],
    [datetime]): these are always found. *)
Definition import_std (name : string) : M unit :=
  store name (VModule name).

(** [__import__(name)] used as an expression statement: the module object is
    dropped and no name is bound. *)
Definition dunder_import (name : string) : M unit :=
  find_and_load name.

(** [try: body / except cls as target: handler] in Python 2: an exception
    that is an instance of [cls] is bound to [target] in the enclosing
    (here global) namespace and the handler runs; the binding outlives the
    handler.  Any other exception propagates. *)
Definition try_except (body : M unit) (cls target : string) (handler : M unit)
  : M unit :=
  λ w s, match body w s with
         | Done _ s' => Done tt s'
         | Raised e s' =>
             if isinstance e cls
             then (store target (VExn e) ;; handler) w s'
             else Raised e s'
         end.

(** ** String operations used by the module *)

(** [s * n] *)
Fixpoint str_repeat (s : string) (n : nat) : string :=
  match n with
  | O => ""
  | S n' => s +:+ str_repeat s n'
  end.

Definition str_mul (s : string) (n : Z) : string := str_repeat s (Z.to_nat n).

(** [template.format(a1, ..., an)] for templates whose only replacement fields
    are the auto-numbered [{}]: each takes the next argument
    ([IndexError] when there is none).  A brace that does not open [{}]
    is outside the fragment and reported as [ValueError], which is what
    Python does for a lone brace. *)
Fixpoint str_format (template : string) (args : list string) : exn + string :=
  match template with
  | EmptyString => inr ""
  | String c rest =>
      if Ascii.eqb c "{" then
        match rest with
        | String c' rest' =>
            if Ascii.eqb c' "}" then
              match args with
              | a :: args' =>
                  match str_format rest' args' with
                  | inr r => inr (a +:+ r)
                  | inl e => inl e
                  end
              | [] => inl (IndexError "tuple index out of range")
              end
            else inl (ValueError "unsupported replacement field")
        | EmptyString => inl (ValueError "Single '{' encountered in format string")
        end
      else if Ascii.eqb c "}" then
        inl (ValueError "Single '}' encountered in format string")
      else
        match str_format rest args with
        | inr r => inr (String c r)
        | inl e => inl e
        end
  end.

(** [str(n)] for an integer. *)
Definition str_of_int (n : Z) : string := pretty n.

(** ** The module, statement by statement *)

Module Conf.

(** Lines 6-34: imports, search paths and the static settings. *)
Definition settings : M unit :=
  import_std "sys" ;; import_std "os" ;; import_std "datetime" ;;
  utils ← ask (λ w, os_path_abspath w "utils");
  sys_path_append utils ;;
  import_ "sbt_versions" ;;
  store "highlight_language" (VStr "scala") ;;
  store "extensions" (VList [VStr "sphinx.ext.extlinks"]) ;;
  store "templates_path" (VList [VStr "_templates"]) ;;
  store "source_suffix" (VStr ".rst") ;;
  store "master_doc" (VStr "index") ;;
  themes ← ask (λ w, os_path_abspath w "_themes");
  sys_path_append themes ;;
  store "html_theme_path" (VList [VStr "_themes"]) ;;
  store "html_theme" (VStr "flask") ;;
  store "html_short_title" (VStr "Util") ;;
  store "html_static_path" (VList [VStr "_static"]) ;;
  store "html_sidebars"
    (VDict [("index", VList [VStr "sidebarintro.html"; VStr "searchbox.html"]);
            ("**", VList [VStr "sidebarintro.html"; VStr "localtoc.html";
                          VStr "relations.html"; VStr "searchbox.html"])]) ;;
  store "html_favicon" (VStr "_static/favicon.ico") ;;
  store "html_theme_options" (VDict [("index_logo", VNone)]) ;;
  store "project" (VUnicode "Util") ;;
  year ← ask datetime_now_year;
  text ← call (λ _, str_format "{} Twitter, Inc" [str_of_int year]);
  store "copyright" (VUnicode text) ;;
  store "htmlhelp_basename" (VStr "util").

(** Lines 35-36: the release read from the build descriptor and the version
    derived from it. *)
Definition versions : M unit :=
  descriptor ← ask (λ w, os_path_abspath w "../../../project/Build.scala");
  r ← call (λ w, find_release w descriptor);
  store "release" r ;;
  release ← load "release";
  v ← call (λ w, release_to_version w release);
  store "version" v.

(** Lines 44-53: the handler of the theme guard. *)
Definition fallback : M unit :=
  print (str_mul "-" 74) ;;
  print "Warning: Flask themes unavailable.  Building with default theme" ;;
  print "If you want the Flask themes, run this command and build again:" ;;
  print "" ;;
  print "  git submodule update --init" ;;
  print (str_mul "-" 74) ;;
  store "pygments_style" (VStr "tango") ;;
  store "html_theme" (VStr "default") ;;
  store "html_theme_options" (VDict []).

(** Lines 41-53: fall back if the theme is not there. *)
Definition theme_guard : M unit :=
  try_except (dunder_import "flask_theme_support") "ImportError" "e" fallback.

(** Lines 38-53. *)
Definition theme : M unit :=
  store "pygments_style" (VStr "flask_theme_support.FlaskyStyle") ;;
  theme_guard.

(** The whole module. *)
Definition conf : M unit :=
  settings ;; versions ;; theme.

End Conf.

(** ** The collaborator module [sbt_versions], from its contract *)

Module SbtVersions.

(** Modelled from the spec: the error of the resolver, [ResolutionError]
    (build descriptor missing or unparsable). *)
Definition ResolutionError (msg : string) : exn :=
  Exn "ResolutionError" ["Exception"; "BaseException"] msg.

Definition TypeError (msg : string) : exn :=
  Exn "TypeError" standard_bases msg.

Section Resolver.

(** The file system as the resolver sees it: the text of the file at a
    path, [None] when there is no such file. *)
Variable read_file : string → option string.

(** The release declaration recognised in a descriptor's text; its format
    belongs to the build collaborator. *)
Variable release_pattern : string → option string.

(** Modelled from the spec: [sbt_versions.find_release], which lives in
    [utils/sbt_versions.py] and is not part of the sources at hand.  Given
    the path of a build descriptor it produces the release string; a
    missing file, or a text with no recognisable release declaration, is a
    [ResolutionError]. *)
Definition find_release (path : string) : exn + pyval :=
  match read_file path with
  | None => inl (ResolutionError path)
  | Some text =>
      match release_pattern text with
      | None => inl (ResolutionError path)
      | Some r => inr (VStr r)
      end
  end.

End Resolver.

(** Modelled from the spec: the characters of a dotted-numeric form, digits
    and the dot. *)
Definition is_digit (c : ascii) : bool :=
  (48 <=? nat_of_ascii c)%nat && (nat_of_ascii c <=? 57)%nat.

Definition is_dotted_numeric (c : ascii) : bool :=
  Ascii.eqb c "." || is_digit c.

(** Modelled from the spec: drop the qualifier segment, everything from the
    delimiter [-] on. *)
Fixpoint strip_qualifier (s : string) : string :=
  match s with
  | EmptyString => ""
  | String c rest =>
      if Ascii.eqb c "-" then "" else String c (strip_qualifier rest)
  end.

(** Modelled from the spec: the dotted-numeric prefix, the longest prefix
    made of digits and dots. *)
Fixpoint dotted_numeric_prefix (s : string) : string :=
  match s with
  | EmptyString => ""
  | String c rest =>
      if is_dotted_numeric c then String c (dotted_numeric_prefix rest) else ""
  end.

(** Modelled from the spec: the rule behind [sbt_versions.release_to_version]
    (not part of the sources at hand): strip any trailing pre-release or
    build qualifier segment, separated by [-], and return the remaining
    dotted-numeric prefix. *)
Definition canonicalize (release : string) : string :=
  dotted_numeric_prefix (strip_qualifier release).

(** Modelled from the spec: [sbt_versions.release_to_version] (not part of
    the sources at hand): given a release string it produces the version
    string [canonicalize release].  The contract speaks of release strings
    only; any other value is rejected here with a [TypeError]. *)
Definition release_to_version (release : pyval) : exn + pyval :=
  match release with
  | VStr r => inr (VStr (canonicalize r))
  | VUnicode r => inr (VUnicode (canonicalize r))
  | _ => inl (TypeError "expected string or buffer")
  end.

End SbtVersions.

(** ** Observing a run *)

(** The value a finished run leaves under a configuration key. *)
Definition config (r : outcome unit) (name : string) : option pyval :=
  match r with
  | Done _ s => globals s !! name
  | Raised _ _ => None
  end.

Definition is_done (r : outcome unit) : bool :=
  match r with Done _ _ => true | Raised _ _ => false end.

(** The exception that escapes, if any. *)
Definition escaped (r : outcome unit) : option exn :=
  match r with Done _ _ => None | Raised e _ => Some e end.

(** Everything written to [sys.stdout] by the end of the run. *)
Definition output (r : outcome unit) : string :=
  match r with Done _ s => stdout s | Raised _ s => stdout s end.

(** What the module asks of its environment, named after the statement that
    asks: the import on line 10 sees [sys.path] extended with [utils], the
    import on line 42 sees it extended with [utils] and [_themes]. *)
Definition sbt_versions_import (w : world) (s : state) : option exn :=
  import_module w (sys_path s ++ [os_path_abspath w "utils"]) "sbt_versions".

Definition theme_import (w : world) (s : state) : option exn :=
  import_module w
    ((sys_path s ++ [os_path_abspath w "utils"]) ++ [os_path_abspath w "_themes"])
    "flask_theme_support".

Definition descriptor (w : world) : string :=
  os_path_abspath w "../../../project/Build.scala".

(** The resolver yields release [R] for the descriptor and version [V] for [R]. *)
Definition resolves (w : world) (R V : pyval) : Prop :=
  find_release w (descriptor w) = inr R ∧ release_to_version w R = inr V.

(** The theme package is there. *)
Definition theme_available (w : world) (s : state) : bool :=
  match theme_import w s with None => true | Some _ => false end.

(** The theme import either succeeds or fails with an [ImportError]. *)
Definition theme_handled (w : world) (s : state) : bool :=
  match theme_import w s with
  | None => true
  | Some e => isinstance e "ImportError"
  end.

(** The text of the fallback warning. *)
Definition warning : string :=
  str_mul "-" 74 +:+ newline +:+
  "Warning: Flask themes unavailable.  Building with default theme" +:+ newline +:+
  "If you want the Flask themes, run this command and build again:" +:+ newline +:+
  newline +:+
  "  git submodule update --init" +:+ newline +:+
  str_mul "-" 74 +:+ newline.

(** The module up to and including line 38, i.e. up to the theme guard. *)
Definition before_guard : M unit :=
  Conf.settings ;; Conf.versions ;;
  store "pygments_style" (VStr "flask_theme_support.FlaskyStyle").

(** The names bound by lines 6-38. *)
Definition names_before_guard : list string :=
  ["sys"; "os"; "datetime"; "sbt_versions"; "highlight_language"; "extensions";
   "templates_path"; "source_suffix"; "master_doc"; "html_theme_path";
   "html_theme"; "html_short_title"; "html_static_path"; "html_sidebars";
   "html_favicon"; "html_theme_options"; "project"; "copyright";
   "htmlhelp_basename"; "release"; "version"; "pygments_style"].

(** The three settings the theme guard is about. *)
Definition theme_fields : list string :=
  ["pygments_style"; "html_theme"; "html_theme_options"].

(** What lines 6-38 make of a namespace [g]: they bind exactly
    [names_before_guard] and leave every other name alone. *)
Record settled (w : world) (R V : pyval) (g g1 : gmap string pyval) : Prop := {
  settled_frame : ∀ k, k ∉ names_before_guard → g1 !! k = g !! k;
  settled_bound : ∀ k, k ∈ names_before_guard → is_Some (g1 !! k);
  settled_theme_path : g1 !! "html_theme_path" = Some (VList [VStr "_themes"]);
  settled_theme : g1 !! "html_theme" = Some (VStr "flask");
  settled_theme_options :
    g1 !! "html_theme_options" = Some (VDict [("index_logo", VNone)]);
  settled_copyright :
    g1 !! "copyright" =
      Some (VUnicode (str_of_int (datetime_now_year w) +:+ " Twitter, Inc"));
  settled_release : g1 !! "release" = Some R;
  settled_version : g1 !! "version" = Some V;
  settled_style :
    g1 !! "pygments_style" = Some (VStr "flask_theme_support.FlaskyStyle")
}.

(** The search path once both directories are appended. *)
Definition extended_path (w : world) (s : state) : list string :=
  (sys_path s ++ [os_path_abspath w "utils"]) ++ [os_path_abspath w "_themes"].

(** The namespace the fallback branch leaves, given the one it found. *)
Definition fallen_back (e : exn) (g1 : gmap string pyval) : gmap string pyval :=
  <["html_theme_options" := VDict []]>
    (<["html_theme" := VStr "default"]>
       (<["pygments_style" := VStr "tango"]>
          (<["e" := VExn e]> g1))).

(** The two variants of the theme settings. *)
Definition enhanced_variant : gmap string pyval :=
  <["html_theme_options" := VDict [("index_logo", VNone)]]>
    (<["html_theme" := VStr "flask"]>
       {["pygments_style" := VStr "flask_theme_support.FlaskyStyle"]}).

Definition fallback_variant : gmap string pyval :=
  <["html_theme_options" := VDict []]>
    (<["html_theme" := VStr "default"]>
       {["pygments_style" := VStr "tango"]}).

(** ** Sample environments *)

Module Sample.

Definition abspath (rel : string) : string :=
  if String.eqb rel "../../../project/Build.scala"
  then "/util/project/Build.scala"
  else "/util/doc/src/sphinx/" +:+ rel.

(** A file system with at most one file, the build descriptor. *)
Definition read_file (text : option string) (path : string) : option string :=
  if String.eqb path "/util/project/Build.scala" then text else None.

(** A stand-in for the collaborator's pattern: the descriptor's whole text. *)
Definition release_pattern (text : string) : option string := Some text.

(** The import machinery: [sbt_versions] is found once [utils] is on the
    path, and the theme import has the given outcome. *)
Definition importer (theme : option exn) (path : list string) (name : string)
  : option exn :=
  if String.eqb name "flask_theme_support" then theme
  else if bool_decide ("/util/doc/src/sphinx/utils" ∈ path) then None
  else Some (ImportError ("No module named " +:+ name)).

Definition world_of (text : option string) (year : Z) (theme : option exn)
  : world :=
  World abspath year (importer theme)
        (SbtVersions.find_release (read_file text) release_pattern)
        SbtVersions.release_to_version.

Definition theme_missing : exn :=
  ImportError "No module named flask_theme_support".
Definition theme_broken : exn :=
  SyntaxError "invalid syntax (flask_theme_support.py, line 1)".

Definition enhanced : world := world_of (Some "6.3.0-SNAPSHOT") 2026 None.
Definition degraded : world :=
  world_of (Some "6.3.0-SNAPSHOT") 2026 (Some theme_missing).
Definition broken : world :=
  world_of (Some "6.3.0-SNAPSHOT") 2026 (Some theme_broken).
Definition next_year : world := world_of (Some "6.3.0-SNAPSHOT") 2027 None.
Definition other_release : world := world_of (Some "7.0.1") 2026 None.
Definition no_descriptor : world := world_of None 2026 None.

(** A fresh namespace, an empty search path, nothing printed yet. *)
Definition start : state := State ∅ [] "".

End Sample.

(** ** Further observations *)

(** A [pygments_style] that is the default syntax-highlighting style: the
    setting left unbound (Sphinx then takes its own default), the Pygments
    style named ['default'], or ['sphinx'], the style Sphinx defaults to. *)
Definition default_style (v : option pyval) : Prop :=
  v = None ∨ v = Some (VStr "default") ∨ v = Some (VStr "sphinx").

(** [sys.path] as the run leaves it. *)
Definition final_path (r : outcome unit) : list string :=
  match r with Done _ s => sys_path s | Raised _ s => sys_path s end.

(** The settings written as literals on lines 12-16, 19, 21-27, 32 and 34,
    which no later line assigns again. *)
Definition static_settings : list (string * pyval) :=
  [("highlight_language", VStr "scala");
   ("extensions", VList [VStr "sphinx.ext.extlinks"]);
   ("templates_path", VList [VStr "_templates"]);
   ("source_suffix", VStr ".rst");
   ("master_doc", VStr "index");
   ("html_theme_path", VList [VStr "_themes"]);
   ("html_short_title", VStr "Util");
   ("html_static_path", VList [VStr "_static"]);
   ("html_sidebars",
    VDict [("index", VList [VStr "sidebarintro.html"; VStr "searchbox.html"]);
           ("**", VList [VStr "sidebarintro.html"; VStr "localtoc.html";
                         VStr "relations.html"; VStr "searchbox.html"])]);
   ("html_favicon", VStr "_static/favicon.ico");
   ("project", VUnicode "Util");
   ("htmlhelp_basename", VStr "util")].

(** The modules bound by the import statements on lines 6 and 10. *)
Definition imported_modules : list string :=
  ["sys"; "os"; "datetime"; "sbt_versions"].

(** More sample environments. *)
Module Elsewhere.

(** Sphinx started in another directory: [utils] is not where the importer
    looks for [sbt_versions]. *)
Definition wrong_directory : world :=
  World (λ rel, "/tmp/" +:+ rel) 2026 (Sample.importer None)
        (SbtVersions.find_release (Sample.read_file (Some "6.3.0")) Sample.release_pattern)
        SbtVersions.release_to_version.

Definition resolver_dependency_missing : exn :=
  ImportError "No module named re".

(** [find_release] itself fails with an [ImportError]. *)
Definition resolver_import_error : world :=
  World Sample.abspath 2026 (Sample.importer (Some Sample.theme_missing))
        (λ _, inl resolver_dependency_missing)
        SbtVersions.release_to_version.

(** [release_to_version] rejects what [find_release] returned. *)
Definition release_not_a_string : world :=
  World Sample.abspath 2026 (Sample.importer None)
        (λ _, inr VNone)
        SbtVersions.release_to_version.

(** A namespace Sphinx has seeded, a search path and earlier output. *)
Definition seeded : state :=
  State (<["tags" := VStr "html"]> (<["project" := VStr "stale"]> ∅))
        ["/usr/lib/python2.7"] "Running Sphinx".

(** The same project checked out under another root, the theme package
    failing to load for another reason. *)
Definition moved : world :=
  World (λ rel, "/srv/checkout/" +:+ rel) 2026
        (λ path name,
           if String.eqb name "flask_theme_support"
           then Some (ImportError "No module named pygments.style")
           else None)
        (λ _, inr (VStr "6.3.0-SNAPSHOT"))
        SbtVersions.release_to_version.

(** The same namespace as [Sample.start] with a search path and earlier
    output of its own. *)
Definition longer_path : state :=
  State ∅ ["/usr/lib/python2.7"; "/opt/site"] "Running Sphinx".

End Elsewhere.

(** ** Running the module: equations for one step *)

Lemma bind_run {A B} (m : M A) (k : A → M B) w s :
  (m ≫= k) w s =
  match m w s with
  | Done a s' => k a w s'
  | Raised e s' => Raised e s'
  end.
Proof. reflexivity. Qed.

Lemma bind_assoc_run {A B C} (m : M A) (k : A → M B) (k' : B → M C) w s :
  ((m ≫= k) ≫= k') w s = (m ≫= (λ a, k a ≫= k')) w s.
Proof. rewrite !bind_run. destruct (m w s); reflexivity. Qed.

Lemma ask_run {A} (f : world → A) w s : ask f w s = Done (f w) s.
Proof. reflexivity. Qed.

Lemma call_run {A} (f : world → exn + A) w s :
  call f w s = match f w with inl e => Raised e s | inr a => Done a s end.
Proof. reflexivity. Qed.

Section RunState.
Implicit Types (w : world) (s : state) (g : gmap string pyval).
Implicit Types (p : list string) (o : string).

Lemma store_run name v w g p o :
  store name v w (State g p o) = Done tt (State (<[name := v]> g) p o).
Proof. reflexivity. Qed.

Lemma load_run name w g p o :
  load name w (State g p o) =
  match g !! name with
  | Some v => Done v (State g p o)
  | None => Raised (NameError name) (State g p o)
  end.
Proof. reflexivity. Qed.

Lemma sys_path_append_run x w g p o :
  sys_path_append x w (State g p o) = Done tt (State g (p ++ [x]) o).
Proof. reflexivity. Qed.

Lemma print_run text w g p o :
  print text w (State g p o) = Done tt (State g p (o +:+ text +:+ newline)).
Proof. reflexivity. Qed.

Lemma import_std_run name w g p o :
  import_std name w (State g p o) =
  Done tt (State (<[name := VModule name]> g) p o).
Proof. reflexivity. Qed.

Lemma find_and_load_run name w g p o :
  find_and_load name w (State g p o) =
  match import_module w p name with
  | None => Done tt (State g p o)
  | Some e => Raised e (State g p o)
  end.
Proof. reflexivity. Qed.

Lemma try_except_run body cls target handler w s :
  try_except body cls target handler w s =
  match body w s with
  | Done _ s' => Done tt s'
  | Raised e s' =>
      if isinstance e cls
      then (store target (VExn e) ;; handler) w s'
      else Raised e s'
  end.
Proof. reflexivity. Qed.
End RunState.

Lemma copyright_template (year : string) :
  str_format "{} Twitter, Inc" [year] = inr (year +:+ " Twitter, Inc").
Proof. reflexivity. Qed.

(** One step of symbolic execution on a goal that mentions [m w (State g p o)]. *)
Ltac run_prim :=
  first
    [ rewrite store_run | rewrite import_std_run | rewrite sys_path_append_run
    | rewrite print_run | rewrite ask_run
    | rewrite load_run, lookup_insert_eq
    | rewrite call_run, copyright_template ].

Ltac run_step :=
  first
    [ rewrite bind_assoc_run
    | rewrite bind_run; run_prim; cbv beta iota
    | run_prim ].

Ltac run := repeat run_step.

(** ** Strings *)

Lemma str_app_cons (x : ascii) (a b : string) :
  String x a +:+ b = String x (a +:+ b).
Proof. reflexivity. Qed.

Lemma str_app_assoc (a b c : string) : (a +:+ b) +:+ c = a +:+ b +:+ c.
Proof.
  induction a as [|x a IH]; [reflexivity|].
  rewrite !str_app_cons. by rewrite IH.
Qed.

Lemma str_app_length (a b : string) :
  String.length (a +:+ b) = String.length a + String.length b.
Proof.
  induction a as [|x a IH]; [reflexivity|].
  rewrite str_app_cons. simpl. by rewrite IH.
Qed.

(** A common suffix can be cancelled. *)
Lemma str_app_inj_r (a b c : string) : a +:+ c = b +:+ c → a = b.
Proof.
  revert b. induction a as [|x a IH]; intros [|y b] E.
  - reflexivity.
  - apply (f_equal String.length) in E.
    rewrite !str_app_length in E. simpl in E. lia.
  - apply (f_equal String.length) in E.
    rewrite !str_app_length in E. simpl in E. lia.
  - rewrite !str_app_cons in E. injection E as -> E. f_equal. by apply IH.
Qed.

(** ** What each part of the module does *)

Ltac use_hyp :=
  match goal with
  | H : import_module _ _ _ = _ |- _ => rewrite H
  | H : find_release _ _ = _ |- _ => rewrite H
  | H : release_to_version _ _ = _ |- _ => rewrite H
  | H : isinstance _ _ = _ |- _ => rewrite H
  end.

Ltac run_env_step :=
  first
    [ run_step
    | rewrite bind_run, find_and_load_run; use_hyp; cbv beta iota
    | rewrite bind_run, call_run; cbv beta; use_hyp; cbv beta iota
    | rewrite call_run; cbv beta; use_hyp; cbv beta iota ].

Ltac run_conf :=
  unfold before_guard, Conf.conf, Conf.settings, Conf.versions, Conf.theme,
    Conf.fallback, import_;
  repeat run_env_step.

Ltac unfold_env :=
  unfold sbt_versions_import, theme_import, theme_available, theme_handled,
    resolves, descriptor in *;
  cbn [sys_path globals stdout] in *.

Lemma conf_split w s :
  Conf.conf w s = (before_guard ;; Conf.theme_guard) w s.
Proof.
  unfold Conf.conf, before_guard, Conf.theme.
  rewrite !bind_run. destruct (Conf.settings w s); [|reflexivity].
  rewrite !bind_run. destruct (Conf.versions w s0); reflexivity.
Qed.

(** Lines 6-38 succeed when [sbt_versions] is found and the resolver
    answers; they extend [sys.path] by the two directories and print
    nothing. *)
Lemma before_guard_spec w s R V :
  sbt_versions_import w s = None →
  resolves w R V →
  ∃ g1,
    before_guard w s = Done tt (State g1 (extended_path w s) (stdout s)) ∧
    settled w R V (globals s) g1.
Proof.
  destruct s as [g p o]. unfold extended_path. unfold_env. intros Hs [Hr Hv].
  run_conf. eexists. split; [reflexivity|]. split.
  - intros k Hk. unfold names_before_guard in Hk.
    rewrite !not_elem_of_cons in Hk. destruct_and!.
    by rewrite !lookup_insert_ne by done.
  - intros k Hk. unfold names_before_guard in Hk.
    rewrite !elem_of_cons in Hk. rewrite elem_of_nil in Hk.
    destruct_or!; subst; try done; simplify_map_eq; eauto.
  - by simplify_map_eq.
  - by simplify_map_eq.
  - by simplify_map_eq.
  - by simplify_map_eq.
  - by simplify_map_eq.
  - by simplify_map_eq.
  - by simplify_map_eq.
Qed.

(** When a step of lines 6-38 raises, the exception leaves the module: there
    is no handler around these lines. *)
Lemma before_guard_outcome w s :
  match sbt_versions_import w s with
  | Some e => escaped (before_guard w s) = Some e
  | None =>
      match find_release w (descriptor w) with
      | inl e => escaped (before_guard w s) = Some e
      | inr R =>
          match release_to_version w R with
          | inl e => escaped (before_guard w s) = Some e
          | inr V => is_done (before_guard w s) = true
          end
      end
  end.
Proof.
  destruct s as [g p o]. unfold_env.
  destruct (import_module _ _ "sbt_versions") as [e|] eqn:Hs.
  { run_conf. reflexivity. }
  destruct (find_release w _) as [e|R] eqn:Hr.
  { run_conf. reflexivity. }
  destruct (release_to_version w R) as [e|V] eqn:Hv.
  { run_conf. reflexivity. }
  run_conf. reflexivity.
Qed.

(** The three ways through the theme guard (lines 41-53). *)
Lemma theme_guard_enhanced w s :
  import_module w (sys_path s) "flask_theme_support" = None →
  Conf.theme_guard w s = Done tt s.
Proof.
  destruct s as [g p o]. cbn [sys_path]. intros Ht.
  unfold Conf.theme_guard, dunder_import.
  by rewrite try_except_run, find_and_load_run, Ht.
Qed.

Lemma theme_guard_fallback w s e :
  import_module w (sys_path s) "flask_theme_support" = Some e →
  isinstance e "ImportError" = true →
  Conf.theme_guard w s =
    Done tt (State
      (<["html_theme_options" := VDict []]>
         (<["html_theme" := VStr "default"]>
            (<["pygments_style" := VStr "tango"]>
               (<["e" := VExn e]> (globals s)))))
      (sys_path s)
      (stdout s +:+ warning)).
Proof.
  destruct s as [g p o]. cbn [sys_path globals stdout]. intros Ht He.
  unfold Conf.theme_guard, dunder_import.
  rewrite try_except_run, find_and_load_run, Ht, He.
  run_conf. do 2 f_equal.
  unfold warning. by rewrite !str_app_assoc.
Qed.

Lemma theme_guard_escape w s e :
  import_module w (sys_path s) "flask_theme_support" = Some e →
  isinstance e "ImportError" = false →
  Conf.theme_guard w s = Raised e s.
Proof.
  destruct s as [g p o]. cbn [sys_path]. intros Ht He.
  unfold Conf.theme_guard, dunder_import.
  by rewrite try_except_run, find_and_load_run, Ht, He.
Qed.

(** A run that finishes found [sbt_versions], resolved the release and the
    version, and got through the theme guard. *)
Lemma conf_done_inv w s :
  is_done (Conf.conf w s) = true →
  sbt_versions_import w s = None ∧
  (∃ R V, resolves w R V) ∧
  theme_handled w s = true.
Proof.
  intros Hd. rewrite conf_split, bind_run in Hd.
  pose proof (before_guard_outcome w s) as Ho.
  destruct (sbt_versions_import w s) as [e|] eqn:Hs.
  { destruct (before_guard w s); simplify_eq/=. }
  destruct (find_release w (descriptor w)) as [e|R] eqn:Hr.
  { destruct (before_guard w s); simplify_eq/=. }
  destruct (release_to_version w R) as [e|V] eqn:Hv.
  { destruct (before_guard w s); simplify_eq/=. }
  split; [done|]. split; [by exists R, V|].
  destruct (before_guard_spec w s R V Hs (conj Hr Hv)) as (g1 & E & _).
  rewrite E in Hd. unfold theme_handled, theme_import.
  destruct (import_module w _ "flask_theme_support") as [e|] eqn:Ht; [|done].
  destruct (isinstance e "ImportError") eqn:He; [done|].
  by rewrite (theme_guard_escape _ _ e) in Hd.
Qed.

(** The two ways a run finishes. *)
Lemma conf_enhanced_run w s R V :
  sbt_versions_import w s = None →
  resolves w R V →
  theme_import w s = None →
  ∃ g1,
    settled w R V (globals s) g1 ∧
    before_guard w s = Done tt (State g1 (extended_path w s) (stdout s)) ∧
    Conf.conf w s = Done tt (State g1 (extended_path w s) (stdout s)).
Proof.
  intros Hs Hr Ht.
  destruct (before_guard_spec w s R V Hs Hr) as (g1 & E & Hg).
  exists g1. split; [done|]. split; [done|].
  rewrite conf_split, bind_run, E. by rewrite theme_guard_enhanced.
Qed.

Lemma conf_fallback_run w s R V e :
  sbt_versions_import w s = None →
  resolves w R V →
  theme_import w s = Some e →
  isinstance e "ImportError" = true →
  ∃ g1,
    settled w R V (globals s) g1 ∧
    before_guard w s = Done tt (State g1 (extended_path w s) (stdout s)) ∧
    Conf.conf w s =
      Done tt (State (fallen_back e g1) (extended_path w s) (stdout s +:+ warning)).
Proof.
  intros Hs Hr Ht He.
  destruct (before_guard_spec w s R V Hs Hr) as (g1 & E & Hg).
  exists g1. split; [done|]. split; [done|].
  rewrite conf_split, bind_run, E. by rewrite (theme_guard_fallback _ _ e).
Qed.

(** Every finished run is one of the two. *)
Lemma conf_done_cases w s :
  is_done (Conf.conf w s) = true →
  ∃ R V g1,
    resolves w R V ∧
    settled w R V (globals s) g1 ∧
    before_guard w s = Done tt (State g1 (extended_path w s) (stdout s)) ∧
    match theme_import w s with
    | None =>
        Conf.conf w s = Done tt (State g1 (extended_path w s) (stdout s))
    | Some e =>
        Conf.conf w s =
          Done tt (State (fallen_back e g1) (extended_path w s)
                         (stdout s +:+ warning))
    end.
Proof.
  intros Hd. destruct (conf_done_inv w s Hd) as (Hs & (R & V & Hr) & Hh).
  exists R, V. unfold theme_handled in Hh.
  destruct (theme_import w s) as [e|] eqn:Ht.
  - destruct (conf_fallback_run w s R V e) as (g1 & ? & ? & ?); [done..|].
    by exists g1.
  - destruct (conf_enhanced_run w s R V) as (g1 & ? & ? & ?); [done..|].
    by exists g1.
Qed.

Lemma lookup_fallen_back e g1 k :
  k ∉ theme_fields → k ≠ "e" → fallen_back e g1 !! k = g1 !! k.
Proof.
  unfold theme_fields, fallen_back. rewrite !not_elem_of_cons.
  intros (? & ? & ? & _) ?. by rewrite !lookup_insert_ne by done.
Qed.

Lemma names_before_guard_not_target k : k ∈ names_before_guard → k ≠ "e".
Proof.
  unfold names_before_guard. rewrite !elem_of_cons, elem_of_nil.
  intros H ->. by destruct_or!.
Qed.

(** ** The theme guard *)

(** C1, as stated, fails: after the fallback [html_theme] is the default
    theme and [html_theme_options] is empty, but [pygments_style] is not a
    default style: line 51 sets it to ['tango']. *)
Lemma fallback_style_is_not_default :
  ¬ (∀ w s R V e,
       sbt_versions_import w s = None →
       resolves w R V →
       theme_import w s = Some e →
       isinstance e "ImportError" = true →
       config (Conf.conf w s) "html_theme" = Some (VStr "default") ∧
       config (Conf.conf w s) "html_theme_options" = Some (VDict []) ∧
       default_style (config (Conf.conf w s) "pygments_style")).
Proof.
  intros H.
  destruct (H Sample.degraded Sample.start
              (VStr "6.3.0-SNAPSHOT") (VStr "6.3.0") Sample.theme_missing)
    as (_ & _ & Hstyle); [reflexivity | split; reflexivity | reflexivity..|].
  assert (config (Conf.conf Sample.degraded Sample.start) "pygments_style"
          = Some (VStr "tango")) as E by reflexivity.
  rewrite E in Hstyle. destruct Hstyle as [Hs | [Hs | Hs]]; discriminate Hs.
Qed.

(** C1, amended.  If the enhanced theme package cannot be loaded (the import
    on line 42 raises an [ImportError], so the fallback branch runs), the
    finished configuration holds the fallback values: [html_theme] is
    ['default'], [html_theme_options] is the empty dict and
    [pygments_style] is ['tango']. *)
Theorem fallback_theme_config w s R V e :
  sbt_versions_import w s = None →
  resolves w R V →
  theme_import w s = Some e →
  isinstance e "ImportError" = true →
  config (Conf.conf w s) "html_theme" = Some (VStr "default") ∧
  config (Conf.conf w s) "html_theme_options" = Some (VDict []) ∧
  config (Conf.conf w s) "pygments_style" = Some (VStr "tango").
Proof.
  intros Hs Hr Ht He.
  destruct (conf_fallback_run w s R V e Hs Hr Ht He) as (g1 & _ & _ & ->).
  unfold fallen_back. cbn [config globals]. repeat split; by simplify_map_eq.
Qed.

Lemma fallback_theme_config_witness :
  config (Conf.conf Sample.degraded Sample.start) "html_theme"
    = Some (VStr "default") ∧
  config (Conf.conf Sample.degraded Sample.start) "html_theme_options"
    = Some (VDict []) ∧
  config (Conf.conf Sample.degraded Sample.start) "pygments_style"
    = Some (VStr "tango").
Proof.
  apply (fallback_theme_config Sample.degraded Sample.start
           (VStr "6.3.0-SNAPSHOT") (VStr "6.3.0") Sample.theme_missing).
  - reflexivity.
  - split; reflexivity.
  - reflexivity.
  - reflexivity.
Defined.

(** C5.  If the enhanced theme package loads, the finished configuration is
    the enhanced one: [html_theme] is ['flask'], [pygments_style] is
    ['flask_theme_support.FlaskyStyle'] and [html_theme_options] still is
    the dict written on lines 28-30. *)
Theorem enhanced_theme_config w s R V :
  sbt_versions_import w s = None →
  resolves w R V →
  theme_import w s = None →
  config (Conf.conf w s) "html_theme" = Some (VStr "flask") ∧
  config (Conf.conf w s) "pygments_style"
    = Some (VStr "flask_theme_support.FlaskyStyle") ∧
  config (Conf.conf w s) "html_theme_options"
    = Some (VDict [("index_logo", VNone)]).
Proof.
  intros Hs Hr Ht.
  destruct (conf_enhanced_run w s R V Hs Hr Ht) as (g1 & Hg & _ & ->).
  cbn [config globals]. by destruct Hg.
Qed.

Lemma enhanced_theme_config_witness :
  config (Conf.conf Sample.enhanced Sample.start) "html_theme"
    = Some (VStr "flask") ∧
  config (Conf.conf Sample.enhanced Sample.start) "pygments_style"
    = Some (VStr "flask_theme_support.FlaskyStyle") ∧
  config (Conf.conf Sample.enhanced Sample.start) "html_theme_options"
    = Some (VDict [("index_logo", VNone)]).
Proof.
  apply (enhanced_theme_config Sample.enhanced Sample.start
           (VStr "6.3.0-SNAPSHOT") (VStr "6.3.0")).
  - reflexivity.
  - split; reflexivity.
  - reflexivity.
Defined.






(** C9.  The theme guard, fallback or not, leaves every key bound by lines
    6-38 other than [pygments_style], [html_theme] and [html_theme_options]
    with the value it had just before the guard; so [html_theme_path] still
    is [['_themes']].  Beyond the three settings the fallback branch binds
    one more name, the target [e] of its [except] clause (Python 2 keeps
    it), which is none of the keys set before. *)
Theorem theme_guard_frame w s :
  is_done (Conf.conf w s) = true →
  (∀ k, k ∈ names_before_guard → k ∉ theme_fields →
        is_Some (config (before_guard w s) k) ∧
        config (Conf.conf w s) k = config (before_guard w s) k) ∧
  (∀ k, k ∉ theme_fields → k ≠ "e" →
        config (Conf.conf w s) k = config (before_guard w s) k) ∧
  config (Conf.conf w s) "html_theme_path" = Some (VList [VStr "_themes"]).
Proof.
  intros Hd.
  destruct (conf_done_cases w s Hd) as (R & V & g1 & Hr & Hg & -> & Hc).
  assert (∀ k, k ∉ theme_fields → k ≠ "e" →
               config (Conf.conf w s) k = g1 !! k) as Hframe.
  { intros k Hk Hke. destruct (theme_import w s) as [e|]; rewrite Hc; [|done].
    cbn [config globals]. by apply lookup_fallen_back. }
  cbn [config globals]. split; [|split].
  - intros k Hk Hkt. split; [by apply (settled_bound _ _ _ _ _ Hg)|].
    apply Hframe; [done|]. by apply names_before_guard_not_target.
  - done.
  - rewrite Hframe; [by destruct Hg | |done].
    unfold theme_fields. rewrite !not_elem_of_cons. repeat split; try done.
    apply not_elem_of_nil.
Qed.

Lemma theme_guard_frame_witness :
  (∀ k, k ∈ names_before_guard → k ∉ theme_fields →
        is_Some (config (before_guard Sample.degraded Sample.start) k) ∧
        config (Conf.conf Sample.degraded Sample.start) k
          = config (before_guard Sample.degraded Sample.start) k) ∧
  (∀ k, k ∉ theme_fields → k ≠ "e" →
        config (Conf.conf Sample.degraded Sample.start) k
          = config (before_guard Sample.degraded Sample.start) k) ∧
  config (Conf.conf Sample.degraded Sample.start) "html_theme_path"
    = Some (VList [VStr "_themes"]).
Proof.
  apply (theme_guard_frame Sample.degraded Sample.start). reflexivity.
Defined.

(** ** The version resolver *)

(** Whatever the theme guard does, a finished run has [release] and
    [version] as the resolver gave them. *)
Lemma conf_done_release w s R V :
  resolves w R V →
  is_done (Conf.conf w s) = true →
  config (Conf.conf w s) "release" = Some R ∧
  config (Conf.conf w s) "version" = Some V.
Proof.
  intros [Hr Hv] Hd.
  destruct (conf_done_cases w s Hd) as (R' & V' & g1 & [Hr' Hv'] & Hg & _ & Hc).
  assert (R' = R) as -> by congruence. assert (V' = V) as -> by congruence.
  destruct Hg. destruct (theme_import w s) as [e|]; rewrite Hc; [|done].
  cbn [config globals]. rewrite !lookup_fallen_back; first done;
    try discriminate; unfold theme_fields;
    rewrite !not_elem_of_cons; repeat split; try done; apply not_elem_of_nil.
Qed.

(** C6.  When the resolver yields [R] for the build descriptor, the
    finished configuration has [release] equal to [R] and [version] equal to
    what [release_to_version] returns for that same [R]. *)
Theorem release_and_version_from_resolver w s R V :
  sbt_versions_import w s = None →
  resolves w R V →
  theme_handled w s = true →
  config (Conf.conf w s) "release" = Some R ∧
  config (Conf.conf w s) "version" = Some V.
Proof.
  intros Hs Hr Hh. apply conf_done_release; [done|].
  unfold theme_handled in Hh. destruct (theme_import w s) as [e|] eqn:Ht.
  - by destruct (conf_fallback_run w s R V e Hs Hr Ht Hh) as (g1 & _ & _ & ->).
  - by destruct (conf_enhanced_run w s R V Hs Hr Ht) as (g1 & _ & _ & ->).
Qed.

Lemma release_and_version_from_resolver_witness :
  config (Conf.conf Sample.enhanced Sample.start) "release"
    = Some (VStr "6.3.0-SNAPSHOT") ∧
  config (Conf.conf Sample.enhanced Sample.start) "version"
    = Some (VStr "6.3.0").
Proof.
  apply (release_and_version_from_resolver Sample.enhanced Sample.start).
  - reflexivity.
  - split; reflexivity.
  - reflexivity.
Defined.

(** An exception raised by either resolver call leaves the module,
    whatever the theme import would have done. *)
Lemma resolver_failure_propagates w s e :
  sbt_versions_import w s = None →
  find_release w (descriptor w) = inl e ∨
  (∃ R, find_release w (descriptor w) = inr R ∧ release_to_version w R = inl e) →
  escaped (Conf.conf w s) = Some e.
Proof.
  intros Hs Hf. pose proof (before_guard_outcome w s) as Ho.
  rewrite Hs in Ho. rewrite conf_split, bind_run.
  destruct Hf as [Hf | (R & Hf & Hv)]; rewrite Hf in Ho; [|rewrite Hv in Ho];
    by destruct (before_guard w s).
Qed.

(** C3.  With the resolver of the contract: if the build descriptor is
    missing, or its text has no recognisable release declaration,
    [find_release] raises a [ResolutionError], which no handler catches: it
    leaves the module and the run does not finish. *)
Theorem missing_descriptor_aborts w s read_file release_pattern :
  find_release w = SbtVersions.find_release read_file release_pattern →
  sbt_versions_import w s = None →
  read_file (descriptor w) = None ∨
  (∃ text, read_file (descriptor w) = Some text ∧ release_pattern text = None) →
  escaped (Conf.conf w s) = Some (SbtVersions.ResolutionError (descriptor w)) ∧
  is_done (Conf.conf w s) = false.
Proof.
  intros Hf Hs Hd.
  assert (escaped (Conf.conf w s)
          = Some (SbtVersions.ResolutionError (descriptor w))) as He.
  { apply resolver_failure_propagates; [done|]. left.
    rewrite Hf. unfold SbtVersions.find_release.
    destruct Hd as [-> | (text & -> & ->)]; reflexivity. }
  split; [done|]. by destruct (Conf.conf w s).
Qed.

Lemma missing_descriptor_aborts_witness :
  escaped (Conf.conf Sample.no_descriptor Sample.start)
    = Some (SbtVersions.ResolutionError "/util/project/Build.scala") ∧
  is_done (Conf.conf Sample.no_descriptor Sample.start) = false.
Proof.
  apply (missing_descriptor_aborts Sample.no_descriptor Sample.start
           (Sample.read_file None) Sample.release_pattern).
  - reflexivity.
  - reflexivity.
  - left. reflexivity.
Defined.

Lemma dotted_numeric_not_delimiter c :
  SbtVersions.is_dotted_numeric c = true → Ascii.eqb c "-" = false.
Proof.
  intros H. destruct (Ascii.eqb_spec c "-") as [->|]; [|reflexivity].
  vm_compute in H. discriminate H.
Qed.

Lemma dotted_numeric_prefix_idempotent s :
  SbtVersions.dotted_numeric_prefix (SbtVersions.dotted_numeric_prefix s)
  = SbtVersions.dotted_numeric_prefix s.
Proof.
  induction s as [|c s IH]; [reflexivity|]. simpl.
  destruct (SbtVersions.is_dotted_numeric c) eqn:Hc; [|reflexivity].
  simpl. by rewrite Hc, IH.
Qed.

Lemma strip_qualifier_dotted_numeric s :
  SbtVersions.strip_qualifier (SbtVersions.dotted_numeric_prefix s)
  = SbtVersions.dotted_numeric_prefix s.
Proof.
  induction s as [|c s IH]; [reflexivity|]. simpl.
  destruct (SbtVersions.is_dotted_numeric c) eqn:Hc; [|reflexivity].
  simpl. by rewrite (dotted_numeric_not_delimiter c Hc), IH.
Qed.

(** C4.  With the rule of the contract, deriving the version is idempotent:
    canonicalising a canonical form changes nothing. *)
Theorem canonicalize_idempotent (x : string) :
  SbtVersions.canonicalize (SbtVersions.canonicalize x)
  = SbtVersions.canonicalize x.
Proof.
  unfold SbtVersions.canonicalize.
  by rewrite strip_qualifier_dotted_numeric, dotted_numeric_prefix_idempotent.
Qed.

Example canonicalize_snapshot :
  SbtVersions.canonicalize "1.2.3-SNAPSHOT" = "1.2.3".
Proof. reflexivity. Qed.

Example canonicalize_plain : SbtVersions.canonicalize "6.3.0" = "6.3.0".
Proof. reflexivity. Qed.

(** ** What flows where *)

(** The theme settings of a finished run depend on nothing but whether the
    theme package was there. *)
Lemma conf_done_theme_fields w s k :
  is_done (Conf.conf w s) = true →
  k ∈ theme_fields →
  config (Conf.conf w s) k =
    (if theme_available w s then enhanced_variant else fallback_variant) !! k.
Proof.
  intros Hd Hk.
  destruct (conf_done_cases w s Hd) as (R & V & g1 & _ & Hg & _ & Hc).
  unfold theme_available, enhanced_variant, fallback_variant. destruct Hg.
  unfold theme_fields in Hk. rewrite !elem_of_cons, elem_of_nil in Hk.
  destruct (theme_import w s) as [e|]; rewrite Hc; unfold fallen_back;
    cbn [config globals]; destruct_or!; subst; try done; by simplify_map_eq.
Qed.

(** C8.  Among finished runs: the same answers from the resolver give the
    same [release] and [version], whatever else differs between the runs
    (the theme package in particular); and the same availability of the
    theme package gives the same [html_theme], [html_theme_options] and
    [pygments_style], whatever else differs (the build descriptor in
    particular). *)
Theorem resolver_and_theme_independent w1 w2 s1 s2 :
  is_done (Conf.conf w1 s1) = true →
  is_done (Conf.conf w2 s2) = true →
  (find_release w1 (descriptor w1) = find_release w2 (descriptor w2) →
   (∀ r, release_to_version w1 r = release_to_version w2 r) →
   config (Conf.conf w1 s1) "release" = config (Conf.conf w2 s2) "release" ∧
   config (Conf.conf w1 s1) "version" = config (Conf.conf w2 s2) "version") ∧
  (theme_available w1 s1 = theme_available w2 s2 →
   ∀ k, k ∈ theme_fields →
        config (Conf.conf w1 s1) k = config (Conf.conf w2 s2) k).
Proof.
  intros Hd1 Hd2. split.
  - intros Hf Hv.
    destruct (conf_done_inv w1 s1 Hd1) as (_ & (R1 & V1 & Hr1) & _).
    destruct (conf_done_inv w2 s2 Hd2) as (_ & (R2 & V2 & Hr2) & _).
    destruct (conf_done_release w1 s1 R1 V1 Hr1 Hd1) as [-> ->].
    destruct (conf_done_release w2 s2 R2 V2 Hr2 Hd2) as [-> ->].
    destruct Hr1 as [Ha1 Hb1], Hr2 as [Ha2 Hb2].
    assert (R1 = R2) as -> by congruence.
    rewrite Hv in Hb1. split; congruence.
  - intros Ha k Hk. rewrite !conf_done_theme_fields by done. by rewrite Ha.
Qed.

Lemma resolver_and_theme_independent_witness :
  (config (Conf.conf Sample.enhanced Sample.start) "release"
     = config (Conf.conf Sample.degraded Sample.start) "release" ∧
   config (Conf.conf Sample.enhanced Sample.start) "version"
     = config (Conf.conf Sample.degraded Sample.start) "version") ∧
  (∀ k, k ∈ theme_fields →
        config (Conf.conf Sample.enhanced Sample.start) k
          = config (Conf.conf Sample.other_release Sample.start) k).
Proof.
  split.
  - apply (proj1 (resolver_and_theme_independent
                    Sample.enhanced Sample.degraded Sample.start Sample.start
                    eq_refl eq_refl)).
    + reflexivity.
    + intros r. reflexivity.
  - apply (proj2 (resolver_and_theme_independent
                    Sample.enhanced Sample.other_release Sample.start Sample.start
                    eq_refl eq_refl)).
    reflexivity.
Defined.

(** C10.  The [copyright] of a finished run is the year the clock shows,
    formatted into ['{} Twitter, Inc'].  So the configuration is not a
    function of the build descriptor and the theme package alone: two
    finished runs in different years have different [copyright] values. *)
Theorem copyright_from_clock w1 w2 s1 s2 :
  is_done (Conf.conf w1 s1) = true →
  is_done (Conf.conf w2 s2) = true →
  str_format "{} Twitter, Inc" [str_of_int (datetime_now_year w1)]
    = inr (str_of_int (datetime_now_year w1) +:+ " Twitter, Inc") ∧
  config (Conf.conf w1 s1) "copyright"
    = Some (VUnicode (str_of_int (datetime_now_year w1) +:+ " Twitter, Inc")) ∧
  (datetime_now_year w1 ≠ datetime_now_year w2 →
   config (Conf.conf w1 s1) "copyright" ≠ config (Conf.conf w2 s2) "copyright").
Proof.
  assert (∀ w s, is_done (Conf.conf w s) = true →
            config (Conf.conf w s) "copyright"
            = Some (VUnicode (str_of_int (datetime_now_year w) +:+ " Twitter, Inc")))
    as Hc.
  { intros w s Hd.
    destruct (conf_done_cases w s Hd) as (R & V & g1 & _ & Hg & _ & Hc).
    destruct Hg. destruct (theme_import w s) as [e|]; rewrite Hc; [|done].
    cbn [config globals]. rewrite lookup_fallen_back; first done;
      try discriminate; unfold theme_fields;
      rewrite !not_elem_of_cons; repeat split; try done; apply not_elem_of_nil. }
  intros Hd1 Hd2. split; [apply copyright_template|]. split; [by apply Hc|].
  intros Hy. rewrite !Hc by done. intros E. apply Hy.
  injection E as E. apply str_app_inj_r in E.
  unfold str_of_int in E. by apply (inj pretty) in E.
Qed.

Lemma copyright_from_clock_witness :
  config (Conf.conf Sample.enhanced Sample.start) "copyright"
    = Some (VUnicode "2026 Twitter, Inc") ∧
  config (Conf.conf Sample.enhanced Sample.start) "copyright"
    ≠ config (Conf.conf Sample.next_year Sample.start) "copyright".
Proof.
  pose proof (copyright_from_clock Sample.enhanced Sample.next_year
                Sample.start Sample.start eq_refl eq_refl) as (_ & H1 & H2).
  split.
  - exact H1.
  - apply H2. discriminate.
Defined.

(** ** More on the run as a whole *)

(** Lines 6-38 print nothing, whether they succeed or raise. *)
Lemma before_guard_silent w s : output (before_guard w s) = stdout s.
Proof.
  destruct s as [g p o]. cbn [stdout].
  destruct (import_module w (p ++ [os_path_abspath w "utils"]) "sbt_versions")
    as [e|] eqn:Hs.
  { run_conf. reflexivity. }
  destruct (find_release w (os_path_abspath w "../../../project/Build.scala"))
    as [e|R] eqn:Hr.
  { run_conf. reflexivity. }
  destruct (release_to_version w R) as [e|V] eqn:Hv.
  { run_conf. reflexivity. }
  run_conf. reflexivity.
Qed.

(** An exception in lines 6-38 ends the run where it was raised. *)
Lemma conf_raised_before_guard w s e :
  escaped (before_guard w s) = Some e →
  escaped (Conf.conf w s) = Some e ∧
  is_done (Conf.conf w s) = false ∧
  output (Conf.conf w s) = stdout s.
Proof.
  intros He. pose proof (before_guard_silent w s) as Ho.
  rewrite conf_split, bind_run.
  destruct (before_guard w s) as [[] s1|e' s1]; simplify_eq/=. done.
Qed.

(** Apart from the three theme settings and the handler's target, a
    finished run has what lines 6-38 left. *)
Lemma conf_done_frame w s k :
  is_done (Conf.conf w s) = true →
  k ∉ theme_fields → k ≠ "e" →
  config (Conf.conf w s) k = config (before_guard w s) k.
Proof.
  intros Hd Hk Hke.
  destruct (conf_done_cases w s Hd) as (R & V & g1 & _ & _ & -> & Hc).
  destruct (theme_import w s) as [e|]; rewrite Hc; [|done].
  cbn [config globals]. by apply lookup_fallen_back.
Qed.

(** X1.  A finished run leaves [sys.path] as it found it, followed by the
    absolute paths of [utils] and [_themes], in this order: entries already
    there keep their precedence, and the theme guard does not touch the
    path. *)
Theorem search_path_extended w s :
  is_done (Conf.conf w s) = true →
  final_path (Conf.conf w s)
  = (sys_path s ++ [os_path_abspath w "utils"; os_path_abspath w "_themes"])%list.
Proof.
  intros Hd.
  destruct (conf_done_cases w s Hd) as (R & V & g1 & _ & _ & _ & Hc).
  assert (final_path (Conf.conf w s) = extended_path w s) as ->.
  { by destruct (theme_import w s); rewrite Hc. }
  unfold extended_path. by rewrite <- app_assoc.
Qed.

Lemma search_path_extended_witness :
  final_path (Conf.conf Sample.degraded Elsewhere.seeded)
  = ["/usr/lib/python2.7"; "/util/doc/src/sphinx/utils";
     "/util/doc/src/sphinx/_themes"].
Proof.
  apply (search_path_extended Sample.degraded Elsewhere.seeded). reflexivity.
Defined.

(** X2.  If [import sbt_versions] on line 10 raises, the exception leaves
    the module, also when it is an [ImportError]: the handler on line 43
    guards the theme import only.  Nothing is printed. *)
Theorem sbt_versions_import_failure_escapes w s e :
  sbt_versions_import w s = Some e →
  escaped (Conf.conf w s) = Some e ∧
  is_done (Conf.conf w s) = false ∧
  output (Conf.conf w s) = stdout s.
Proof.
  intros Hs. apply conf_raised_before_guard.
  pose proof (before_guard_outcome w s) as Ho. by rewrite Hs in Ho.
Qed.

Lemma sbt_versions_import_failure_escapes_witness :
  escaped (Conf.conf Elsewhere.wrong_directory Sample.start)
    = Some (ImportError "No module named sbt_versions") ∧
  is_done (Conf.conf Elsewhere.wrong_directory Sample.start) = false ∧
  output (Conf.conf Elsewhere.wrong_directory Sample.start) = "".
Proof.
  apply (sbt_versions_import_failure_escapes
           Elsewhere.wrong_directory Sample.start).
  reflexivity.
Defined.

(** X3.  An exception of any class raised by [find_release] or by
    [release_to_version] on lines 35-36 leaves the module, an [ImportError]
    included and whatever the theme import would have done: no fallback
    takes place and no warning is printed. *)
Theorem resolver_exception_not_guarded w s e :
  sbt_versions_import w s = None →
  find_release w (descriptor w) = inl e ∨
  (∃ R, find_release w (descriptor w) = inr R ∧ release_to_version w R = inl e) →
  escaped (Conf.conf w s) = Some e ∧
  is_done (Conf.conf w s) = false ∧
  output (Conf.conf w s) = stdout s.
Proof.
  intros Hs Hf. apply conf_raised_before_guard.
  pose proof (before_guard_outcome w s) as Ho. rewrite Hs in Ho.
  destruct Hf as [Hf | (R & Hf & Hv)]; rewrite Hf in Ho; [done|].
  by rewrite Hv in Ho.
Qed.

Lemma resolver_exception_not_guarded_witness :
  (escaped (Conf.conf Elsewhere.resolver_import_error Sample.start)
     = Some Elsewhere.resolver_dependency_missing ∧
   is_done (Conf.conf Elsewhere.resolver_import_error Sample.start) = false ∧
   output (Conf.conf Elsewhere.resolver_import_error Sample.start) = "") ∧
  (escaped (Conf.conf Elsewhere.release_not_a_string Sample.start)
     = Some (SbtVersions.TypeError "expected string or buffer") ∧
   is_done (Conf.conf Elsewhere.release_not_a_string Sample.start) = false ∧
   output (Conf.conf Elsewhere.release_not_a_string Sample.start) = "").
Proof.
  split.
  - apply (resolver_exception_not_guarded
             Elsewhere.resolver_import_error Sample.start).
    + reflexivity.
    + left. reflexivity.
  - apply (resolver_exception_not_guarded
             Elsewhere.release_not_a_string Sample.start).
    + reflexivity.
    + right. exists VNone. split; reflexivity.
Defined.

(** X4.  When the theme import raises something that is not an
    [ImportError], that exception leaves the module: the run does not
    finish and the warning is not printed. *)
Theorem other_theme_exception_escapes w s R V e :
  sbt_versions_import w s = None →
  resolves w R V →
  theme_import w s = Some e →
  isinstance e "ImportError" = false →
  escaped (Conf.conf w s) = Some e ∧
  is_done (Conf.conf w s) = false ∧
  output (Conf.conf w s) = stdout s.
Proof.
  intros Hs Hr Ht He.
  destruct (before_guard_spec w s R V Hs Hr) as (g1 & E & _).
  rewrite conf_split, bind_run, E.
  by rewrite (theme_guard_escape _ _ e).
Qed.

Lemma other_theme_exception_escapes_witness :
  escaped (Conf.conf Sample.broken Sample.start) = Some Sample.theme_broken ∧
  is_done (Conf.conf Sample.broken Sample.start) = false ∧
  output (Conf.conf Sample.broken Sample.start) = "".
Proof.
  apply (other_theme_exception_escapes Sample.broken Sample.start
           (VStr "6.3.0-SNAPSHOT") (VStr "6.3.0")).
  - reflexivity.
  - split; reflexivity.
  - reflexivity.
  - reflexivity.
Defined.

(** What lines 6-38 leave under the literal settings and the module names. *)
Lemma before_guard_static w s R V :
  sbt_versions_import w s = None →
  resolves w R V →
  (∀ k v, (k, v) ∈ static_settings → config (before_guard w s) k = Some v) ∧
  (∀ k, k ∈ imported_modules → config (before_guard w s) k = Some (VModule k)).
Proof.
  destruct s as [g p o]. unfold_env. intros Hs [Hr Hv].
  run_conf. cbn [config globals]. split.
  - intros k v Hk. unfold static_settings in Hk.
    rewrite !elem_of_cons, elem_of_nil in Hk.
    destruct_or!; simplify_eq; try done; by simplify_map_eq.
  - intros k Hk. unfold imported_modules in Hk.
    rewrite !elem_of_cons, elem_of_nil in Hk.
    destruct_or!; simplify_eq; try done; by simplify_map_eq.
Qed.

Lemma static_settings_not_theme k v :
  (k, v) ∈ static_settings → (k ∉ theme_fields) ∧ (k ≠ "e").
Proof.
  unfold static_settings, theme_fields. intros Hk.
  rewrite !elem_of_cons, elem_of_nil in Hk. rewrite !not_elem_of_cons.
  destruct_or!; simplify_eq; try done.
  all: repeat split; try done; apply not_elem_of_nil.
Qed.

Lemma imported_modules_not_theme k :
  k ∈ imported_modules → (k ∉ theme_fields) ∧ (k ≠ "e").
Proof.
  unfold imported_modules, theme_fields. intros Hk.
  rewrite !elem_of_cons, elem_of_nil in Hk. rewrite !not_elem_of_cons.
  destruct_or!; simplify_eq; try done.
  all: repeat split; try done; apply not_elem_of_nil.
Qed.

Lemma outside_names_not_theme k :
  k ∉ names_before_guard → k ∉ theme_fields.
Proof.
  unfold names_before_guard, theme_fields. rewrite !not_elem_of_cons.
  intros Hk. destruct_and!. repeat split; done.
Qed.

(** X6.  Every finished run has the literal settings of lines 12-34 as
    written, whatever the environment, whichever way the theme guard went
    and whatever the namespace held under these keys before. *)
Theorem static_settings_fixed w s :
  is_done (Conf.conf w s) = true →
  ∀ k v, (k, v) ∈ static_settings → config (Conf.conf w s) k = Some v.
Proof.
  intros Hd k v Hk.
  destruct (conf_done_inv w s Hd) as (Hs & (R & V & Hr) & _).
  destruct (static_settings_not_theme k v Hk).
  rewrite conf_done_frame by done.
  by apply (before_guard_static w s R V Hs Hr).
Qed.

Lemma static_settings_fixed_witness :
  config (Conf.conf Sample.degraded Elsewhere.seeded) "highlight_language"
    = Some (VStr "scala") ∧
  config (Conf.conf Sample.degraded Elsewhere.seeded) "project"
    = Some (VUnicode "Util").
Proof.
  split.
  - apply (static_settings_fixed Sample.degraded Elsewhere.seeded eq_refl).
    apply list_elem_of_here.
  - apply (static_settings_fixed Sample.degraded Elsewhere.seeded eq_refl).
    do 10 apply list_elem_of_further. apply list_elem_of_here.
Defined.

(** X7.  The names of the imported modules, [sys], [os], [datetime] and
    [sbt_versions], stay bound to their modules in the finished namespace,
    next to the settings. *)
Theorem imported_modules_stay_bound w s :
  is_done (Conf.conf w s) = true →
  ∀ k, k ∈ imported_modules → config (Conf.conf w s) k = Some (VModule k).
Proof.
  intros Hd k Hk.
  destruct (conf_done_inv w s Hd) as (Hs & (R & V & Hr) & _).
  destruct (imported_modules_not_theme k Hk).
  rewrite conf_done_frame by done.
  by apply (before_guard_static w s R V Hs Hr).
Qed.

Lemma imported_modules_stay_bound_witness :
  config (Conf.conf Sample.enhanced Sample.start) "sbt_versions"
  = Some (VModule "sbt_versions").
Proof.
  apply (imported_modules_stay_bound Sample.enhanced Sample.start eq_refl).
  do 3 apply list_elem_of_further. apply list_elem_of_here.
Defined.

(** X8.  A finished run leaves alone every name of the namespace it was
    started in that the module does not assign: all names outside
    [names_before_guard] other than [e], and [e] too when the theme package
    was there. *)
Theorem unassigned_names_preserved w s :
  is_done (Conf.conf w s) = true →
  (∀ k, k ∉ names_before_guard → k ≠ "e" →
        config (Conf.conf w s) k = globals s !! k) ∧
  (theme_available w s = true → config (Conf.conf w s) "e" = globals s !! "e").
Proof.
  intros Hd.
  destruct (conf_done_cases w s Hd) as (R & V & g1 & _ & Hg & _ & Hc). split.
  - intros k Hk Hke. rewrite <- (settled_frame _ _ _ _ _ Hg k Hk).
    destruct (theme_import w s) as [e|]; rewrite Hc; [|done].
    cbn [config globals]. apply lookup_fallen_back; [|done].
    by apply outside_names_not_theme.
  - unfold theme_available. destruct (theme_import w s) as [e|]; [done|].
    intros _. rewrite Hc. cbn [config globals].
    apply (settled_frame _ _ _ _ _ Hg).
    intros He. by apply names_before_guard_not_target in He.
Qed.

Lemma unassigned_names_preserved_witness :
  (∀ k, k ∉ names_before_guard → k ≠ "e" →
        config (Conf.conf Sample.enhanced Elsewhere.seeded) k
        = globals Elsewhere.seeded !! k) ∧
  (theme_available Sample.enhanced Elsewhere.seeded = true →
   config (Conf.conf Sample.enhanced Elsewhere.seeded) "e"
   = globals Elsewhere.seeded !! "e").
Proof.
  apply (unassigned_names_preserved Sample.enhanced Elsewhere.seeded).
  reflexivity.
Defined.

(** X9.  After a fallback the caught exception stays in the finished
    namespace under the name [e], the target of the [except] clause, in
    place of whatever [e] was bound to before. *)
Theorem fallback_leaves_exception_bound w s R V e :
  sbt_versions_import w s = None →
  resolves w R V →
  theme_import w s = Some e →
  isinstance e "ImportError" = true →
  config (Conf.conf w s) "e" = Some (VExn e).
Proof.
  intros Hs Hr Ht He.
  destruct (conf_fallback_run w s R V e Hs Hr Ht He) as (g1 & _ & _ & ->).
  unfold fallen_back. cbn [config globals]. by simplify_map_eq.
Qed.

Lemma fallback_leaves_exception_bound_witness :
  config (Conf.conf Sample.degraded Sample.start) "e"
  = Some (VExn Sample.theme_missing).
Proof.
  apply (fallback_leaves_exception_bound Sample.degraded Sample.start
           (VStr "6.3.0-SNAPSHOT") (VStr "6.3.0")).
  - reflexivity.
  - split; reflexivity.
  - reflexivity.
  - reflexivity.
Defined.


(** X11.  The working directory and the search path reach the finished
    configuration only through what the imports and the resolver make of
    them: two finished runs that start from the same namespace, read the
    same year, get the same answers from the resolver and agree on whether
    the theme package is there, agree on every key other than [e]. *)
Theorem config_determined_by_inputs w1 w2 s1 s2 :
  is_done (Conf.conf w1 s1) = true →
  is_done (Conf.conf w2 s2) = true →
  globals s1 = globals s2 →
  datetime_now_year w1 = datetime_now_year w2 →
  find_release w1 (descriptor w1) = find_release w2 (descriptor w2) →
  (∀ r, release_to_version w1 r = release_to_version w2 r) →
  theme_available w1 s1 = theme_available w2 s2 →
  ∀ k, k ≠ "e" → config (Conf.conf w1 s1) k = config (Conf.conf w2 s2) k.
Proof.
  intros Hd1 Hd2 Hg Hy Hf Hv Ha k Hke.
  destruct (decide (k ∈ theme_fields)) as [Ht|Ht].
  { rewrite !conf_done_theme_fields by done. by rewrite Ha. }
  rewrite !conf_done_frame by done.
  destruct (conf_done_inv w1 s1 Hd1) as (Hs1 & (R1 & V1 & Hr1) & _).
  destruct (conf_done_inv w2 s2 Hd2) as (Hs2 & (R2 & V2 & Hr2) & _).
  assert (R1 = R2) as -> by (destruct Hr1, Hr2; congruence).
  assert (V1 = V2) as ->.
  { destruct Hr1 as [_ Hb1], Hr2 as [_ Hb2]. rewrite Hv in Hb1. congruence. }
  destruct (before_guard_static w1 s1 R2 V2 Hs1 Hr1) as [St1 Mo1].
  destruct (before_guard_static w2 s2 R2 V2 Hs2 Hr2) as [St2 Mo2].
  destruct (decide (k ∈ imported_modules)) as [Hm|Hm].
  { by rewrite Mo1, Mo2. }
  destruct (decide (k ∈ static_settings.*1)) as [Hst|Hst].
  { apply list_elem_of_fmap in Hst as ([k' v] & -> & Hst).
    cbn [fst]. by rewrite (St1 _ _ Hst), (St2 _ _ Hst). }
  destruct (before_guard_spec w1 s1 R2 V2 Hs1 Hr1) as (g1 & -> & G1).
  destruct (before_guard_spec w2 s2 R2 V2 Hs2 Hr2) as (g2 & -> & G2).
  cbn [config globals].
  destruct (decide (k ∈ ["copyright"; "release"; "version"])) as [Hc|Hc].
  { rewrite !elem_of_cons, elem_of_nil in Hc. destruct G1, G2.
    destruct_or!; subst; try done; congruence. }
  rewrite (settled_frame _ _ _ _ _ G1), (settled_frame _ _ _ _ _ G2);
    [by rewrite Hg | |].
  all: unfold names_before_guard; unfold theme_fields in Ht;
    unfold imported_modules in Hm; cbn [fmap list_fmap static_settings fst] in Hst;
    rewrite !not_elem_of_cons in *; destruct_and!;
    repeat split; try done; apply not_elem_of_nil.
Qed.

Lemma config_determined_by_inputs_witness :
  config (Conf.conf Sample.degraded Sample.start) "version"
  = config (Conf.conf Elsewhere.moved Elsewhere.longer_path) "version".
Proof.
  apply (config_determined_by_inputs
           Sample.degraded Elsewhere.moved Sample.start Elsewhere.longer_path).
  - reflexivity.
  - reflexivity.
  - reflexivity.
  - reflexivity.
  - reflexivity.
  - intros r. reflexivity.
  - reflexivity.
  - discriminate.
Defined.
